(** * Link shortener: hash generation, repositories, service and controller

    A shallow embedding of the NestJS link shortener
    (app.service.ts, app.repository.ts, app.repository.hashmap.ts,
    app.repository.redis.ts, app.controller.ts) and the properties of its
    shortening and retrieval engine.

    Conventions of the embedding.
    - An rxjs [Observable<T>] of this program emits at most one value: it is
      built by [of] (written [of_], the word being reserved), by [from] on
      a promise, and by [map] / [mergeMap] over those.  It is modelled as a
      state transformer returning one notification, [Next v] or
      [Error e]; the state is whatever the
      observable reads and writes (the Map of the volatile repository, the
      Redis connection, the random source).
    - Every observable is subscribed once, right after the call that built
      it, as the Nest runtime and the test files do; the effects of a method
      are sequenced in the order the source performs them under that regime.
    - TypeScript types are erased at run time: a repository declared to
      return [Observable<string>] emits [undefined] (Map.get on a missing
      key) or [null] (Redis GET on a missing key), so emitted values are
      [JsValue]s. *)

From Stdlib Require Import String Ascii List ZArith Lia.
From stdpp Require Import base strings gmap.

Local Open Scope string_scope.

(** ** JavaScript values and errors *)

Inductive JsValue : Type :=
| JsUndefined
| JsNull
| JsString (s : string).

(** ToBoolean on the values above: [undefined], [null] and the empty string
    are falsy, every other string is truthy. *)
Definition truthy (v : JsValue) : bool :=
  match v with
  | JsUndefined => false
  | JsNull => false
  | JsString EmptyString => false
  | JsString (String _ _) => true
  end.

(** The declared type of a value that passed a truthiness guard. *)
Definition asString (v : JsValue) : string :=
  match v with
  | JsString s => s
  | _ => ""
  end.

Record JsError : Type := { error_name : string; error_message : string }.

(** [String.prototype.slice(beginIndex)] for a non-negative index: the
    suffix starting at [beginIndex], empty when the string is shorter. *)
Fixpoint slice (beginIndex : nat) (s : string) : string :=
  match beginIndex, s with
  | S n, String _ rest => slice n rest
  | _, _ => s
  end.

(** ** rxjs: single-notification observables over a state [W] *)

Module Rx.

Inductive Notification (A : Type) : Type :=
| Next (a : A)
| Error (e : JsError).
Arguments Next {A} a.
Arguments Error {A} e.

Definition Observable (W A : Type) : Type := W -> Notification A * W.

(** A promise settles once: fulfilled is [Next], rejected is [Error]. *)
Definition Promise (W A : Type) : Type := W -> Notification A * W.

Section Operators.
Context {W : Type}.

Definition of_ {A} (a : A) : Observable W A := fun w => (Next a, w).

Definition from {A} (p : Promise W A) : Observable W A := p.

Definition map {A B} (f : A -> B) (o : Observable W A) : Observable W B :=
  fun w =>
    match o w with
    | (Next a, w') => (Next (f a), w')
    | (Error e, w') => (Error e, w')
    end.

Definition mergeMap {A B} (f : A -> Observable W B) (o : Observable W A)
  : Observable W B :=
  fun w =>
    match o w with
    | (Next a, w') => f a w'
    | (Error e, w') => (Error e, w')
    end.

Definition pipe {A B} (o : Observable W A)
    (op : Observable W A -> Observable W B) : Observable W B :=
  op o.

End Operators.

End Rx.

Import Rx.

(** ** The random source and the radix-36 rendering of its numbers *)

Inductive Digit36 : Type :=
| D0 | D1 | D2 | D3 | D4 | D5 | D6 | D7 | D8 | D9
| Da | Db | Dc | Dd | De | Df | Dg | Dh | Di | Dj | Dk | Dl | Dm
| Dn | Do | Dp | Dq | Dr | Ds | Dt | Du | Dv | Dw | Dx | Dy | Dz.

Definition digit_char (d : Digit36) : ascii :=
  match d with
  | D0 => "0" | D1 => "1" | D2 => "2" | D3 => "3" | D4 => "4"
  | D5 => "5" | D6 => "6" | D7 => "7" | D8 => "8" | D9 => "9"
  | Da => "a" | Db => "b" | Dc => "c" | Dd => "d" | De => "e"
  | Df => "f" | Dg => "g" | Dh => "h" | Di => "i" | Dj => "j"
  | Dk => "k" | Dl => "l" | Dm => "m" | Dn => "n" | Do => "o"
  | Dp => "p" | Dq => "q" | Dr => "r" | Ds => "s" | Dt => "t"
  | Du => "u" | Dv => "v" | Dw => "w" | Dx => "x" | Dy => "y"
  | Dz => "z"
  end%char.

(** The characters [Number.prototype.toString(36)] draws digits from. *)
Definition alphabet : string := "0123456789abcdefghijklmnopqrstuvwxyz".

(** A Number in the half-open interval from 0 to 1, as [Math.random]
    returns it.  The engine's conversion of the double to radix 36 is not
    this program's code: the number is represented by the fraction digits
    that conversion prints (none for the number 0). *)
Record UnitNumber : Type := { fraction36 : list Digit36 }.

(** [x.toString(36)] for such a number: ["0"], or ["0."] followed by the
    fraction digits. *)
Definition Number_toString36 (x : UnitNumber) : string :=
  match fraction36 x with
  | [] => "0"
  | ds => "0." +:+ string_of_list_ascii (List.map digit_char ds)
  end.

(** The random source: the numbers successive calls of [Math.random] will
    return, and how many calls were made. *)
Record RandomSource : Type :=
  { upcoming : nat -> UnitNumber; drawn : nat }.

Definition Math_random (g : RandomSource) : UnitNumber * RandomSource :=
  (upcoming g (drawn g), {| upcoming := upcoming g; drawn := S (drawn g) |}).

(** ** app.repository.ts: the repository interface *)

Record AppRepository (St : Type) : Type :=
  { put : string -> string -> Observable St JsValue;
    get : string -> Observable St JsValue }.
Arguments put {St} _ _ _.
Arguments get {St} _ _.

(** ** app.repository.hashmap.ts *)

Module AppRepositoryHashmap.

(** [new Map<string, string>()] *)
Definition constructor : gmap string string := ∅.

(** [Map.prototype.get]: the value, or [undefined]. *)
Definition Map_get (key : string) (m : gmap string string) : JsValue :=
  match m !! key with
  | Some v => JsString v
  | None => JsUndefined
  end.

(** [Map.prototype.set]: returns the map itself, updated. *)
Definition Map_set (key value : string) (m : gmap string string)
  : gmap string string :=
  <[key := value]> m.

Definition get (hash : string) : Observable (gmap string string) JsValue :=
  fun hashMap => of_ (Map_get hash hashMap) hashMap.

(** [of(this.hashMap.set(hash, url).get(hash))] *)
Definition put (hash url : string)
  : Observable (gmap string string) JsValue :=
  fun hashMap =>
    let hashMap' := Map_set hash url hashMap in
    of_ (Map_get hash hashMap') hashMap'.

Definition repository : AppRepository (gmap string string) :=
  Build_AppRepository _ put get.

End AppRepositoryHashmap.

(** ** The node-redis client, as app.repository.redis.ts uses it *)

Module Redis.

(** The two commands the repository sends.  [SET] resolves to the reply
    ["OK"], [GET] to the stored string or [null]; either promise rejects
    when the command cannot be carried out. *)
Record Client (C : Type) : Type :=
  { SET : string -> string -> Promise C JsValue;
    GET : string -> Promise C JsValue }.
Arguments SET {C} _ _ _.
Arguments GET {C} _ _.

(** A reachable single-node store holding plain strings, no expiry. *)
Definition server : Client (gmap string string) :=
  {| SET := fun key value store => (Next (JsString "OK"), <[key := value]> store);
     GET := fun key store =>
              (Next (match store !! key with
                     | Some v => JsString v
                     | None => JsNull
                     end), store) |}.

Definition ClientClosedError : JsError :=
  {| error_name := "ClientClosedError";
     error_message := "The client is closed" |}.

(** A client whose connection is closed: every command is rejected and
    nothing reaches the store. *)
Definition closed : Client (gmap string string) :=
  {| SET := fun _ _ store => (Error ClientClosedError, store);
     GET := fun _ store => (Error ClientClosedError, store) |}.

(** Commands in the order the client was asked to send them. *)
Inductive Command : Type :=
| CmdSET (key value : string)
| CmdGET (key : string).

(** Any client, with a record of the commands it was given. *)
Definition recording {C : Type} (c : Client C) : Client (C * list Command) :=
  {| SET := fun key value '(st, sent) =>
              let '(n, st') := SET c key value st in
              (n, (st', (sent ++ [CmdSET key value])%list));
     GET := fun key '(st, sent) =>
              let '(n, st') := GET c key st in
              (n, (st', (sent ++ [CmdGET key])%list)) |}.

End Redis.

(** ** app.repository.redis.ts *)

Module AppRepositoryRedis.

Section WithClient.
Context {C : Type} (redisClient : Redis.Client C).

Definition get (hash : string) : Observable C JsValue :=
  from (Redis.GET redisClient hash).

Definition put (hash url : string) : Observable C JsValue :=
  pipe (from (Redis.SET redisClient hash url))
       (mergeMap (fun _ => from (Redis.GET redisClient hash))).

Definition repository : AppRepository C :=
  Build_AppRepository _ put get.

End WithClient.

End AppRepositoryRedis.

(** ** Observing the calls a service makes on its repository *)

Inductive RepositoryCall : Type :=
| PutCall (hash url : string)
| GetCall (hash : string).

(** Any repository, with a record of the calls made on it. *)
Definition spyOn {St : Type} (r : AppRepository St)
  : AppRepository (St * list RepositoryCall) :=
  {| put := fun hash url '(st, calls) =>
              let '(n, st') := put r hash url st in
              (n, (st', (calls ++ [PutCall hash url])%list));
     get := fun hash '(st, calls) =>
              let '(n, st') := get r hash st in
              (n, (st', (calls ++ [GetCall hash])%list)) |}.

(** ** app.service.ts *)

(** What a service call can touch: the random source and the state behind
    the injected repository. *)
Record World (St : Type) : Type :=
  { random : RandomSource; backend : St }.
Arguments random {St} _.
Arguments backend {St} _.

(** An observable of the repository, run on the repository's part of the
    world. *)
Definition onBackend {St A : Type} (o : Observable St A)
  : Observable (World St) A :=
  fun w =>
    let '(n, st') := o (backend w) in
    (n, {| random := random w; backend := st' |}).

(** [Math.random().toString(36).slice(7)] for the number drawn. *)
Definition generateHash (x : UnitNumber) : string :=
  slice 7 (Number_toString36 x).

Module AppService.

Section WithRepository.
Context {St : Type} (appRepository : AppRepository St).

Definition getHello : string := "Hello World!".

Definition shorten (url : string) : Observable (World St) string :=
  fun w =>
    let '(x, g) := Math_random (random w) in
    let hash := generateHash x in
    pipe (onBackend (put appRepository hash url))
         (map (fun _ => hash))
         {| random := g; backend := backend w |}.

Definition retrieve (hash : string) : Observable (World St) JsValue :=
  onBackend (get appRepository hash).

End WithRepository.

End AppService.

(** ** app.controller.ts *)

Module AppController.

(** [ShortenResponse | ErrorResponse] *)
Inductive ShortenResult : Type :=
| ShortenResponse (hash : string)
| ErrorResponse (error : string) (code : Z).

(** The object handed to [@Redirect()]. *)
Record RedirectTarget : Type := { url : JsValue }.

Definition noUrlMessage : string :=
  "No url provided. Please provide in the body. E.g. {'url':'https://google.com'}".

Section WithRepository.
Context {St : Type} (appRepository : AppRepository St).

Definition getHello : string := AppService.getHello.

(** [url] is what [@Body('url')] extracts: [undefined] when the body has
    no such field. *)
Definition shorten (url : JsValue) : Observable (World St) ShortenResult :=
  if negb (truthy url) then
    of_ (ErrorResponse noUrlMessage 400)
  else
    pipe (AppService.shorten appRepository (asString url))
         (map (fun hash => ShortenResponse hash)).

Definition retrieveAndRedirect (hash : string)
  : Observable (World St) RedirectTarget :=
  pipe (AppService.retrieve appRepository hash)
       (map (fun u => {| url := u |})).

End WithRepository.

End AppController.

(** ** Histories and sample inputs *)

(** The state of a repository after a sequence of writes [(hash, url)],
    oldest first. *)
Definition replay {St : Type} (r : AppRepository St)
    (writes : list (string * string)) (st : St) : St :=
  fold_left (fun acc '(hash, url) => snd (put r hash url acc)) writes st.

(** The numbers 0.5 and 2^-16, whose radix-36 renderings are ["0.i"] and
    ["0.000pmn29"]. *)
Definition oneHalf : UnitNumber := {| fraction36 := [Di] |}.
Definition twoToMinus16 : UnitNumber :=
  {| fraction36 := [D0; D0; D0; Dp; Dm; Dn; D2; D9] |}.

(** A random source that returns the same number at every call. *)
Definition constantSource (x : UnitNumber) : RandomSource :=
  {| upcoming := fun _ => x; drawn := 0 |}.

(** The url most recently written under [h] in a history (oldest write
    first), if any. *)
Fixpoint lastWritten (h : string) (writes : list (string * string))
  : option string :=
  match writes with
  | [] => None
  | (k, u) :: rest =>
      match lastWritten h rest with
      | Some later => Some later
      | None => if decide (k = h) then Some u else None
      end
  end.

(** A reachable store behind a connection that closes after a number of
    commands: while commands are left the client behaves as [Redis.server],
    afterwards as [Redis.closed]. *)
Definition droppingClient : Redis.Client (gmap string string * nat) :=
  {| Redis.SET := fun key value '(store, remaining) =>
       match remaining with
       | O => (Error Redis.ClientClosedError, (store, O))
       | S n => (Next (JsString "OK"), (<[key := value]> store, n))
       end;
     Redis.GET := fun key '(store, remaining) =>
       match remaining with
       | O => (Error Redis.ClientClosedError, (store, O))
       | S n => (Next (match store !! key with
                       | Some v => JsString v
                       | None => JsNull
                       end), (store, n))
       end |}.

(** A reachable store that acknowledges every write and evicts the key at
    once (a store at its memory limit): [SET] replies ["OK"] and the key is
    gone, [GET] is that of [Redis.server]. *)
Definition evictingClient : Redis.Client (gmap string string) :=
  {| Redis.SET := fun key _ store =>
       (Next (JsString "OK"), delete key store);
     Redis.GET := Redis.GET Redis.server |}.

(** A random source that returns 2^-16 at its even calls and 0.5 at its
    odd ones. *)
Definition alternatingSource : RandomSource :=
  {| upcoming := fun n => if Nat.even n then twoToMinus16 else oneHalf;
     drawn := 0 |}.

(** * Properties *)

(** ** Strings and the hash generator *)

Lemma slice_length (n : nat) (s : string) :
  String.length (slice n s) = String.length s - n.
Proof.
  revert s; induction n as [|n IH]; intros s.
  - cbn. destruct s; cbn; lia.
  - destruct s as [|c rest]; cbn; [reflexivity | apply IH].
Qed.

Lemma slice_of_digits (n : nat) (l : list ascii) :
  slice n (string_of_list_ascii l) = string_of_list_ascii (drop n l).
Proof.
  revert l; induction n as [|n IH]; intros l.
  - destruct l; reflexivity.
  - destruct l as [|c l]; cbn; [reflexivity | apply IH].
Qed.

Lemma digit_char_in_alphabet (d : Digit36) :
  In (digit_char d) (list_ascii_of_string alphabet).
Proof. destruct d; cbn; tauto. Qed.

(** The hash is what is left of the fraction digits after the first five:
    [slice(7)] removes the leading ["0."] and five digits. *)
Lemma generateHash_digits (x : UnitNumber) :
  generateHash x
  = string_of_list_ascii (List.map digit_char (drop 5 (fraction36 x))).
Proof.
  unfold generateHash, Number_toString36.
  destruct (fraction36 x) as [|d ds] eqn:E; [reflexivity|].
  change ("0." +:+ string_of_list_ascii (List.map digit_char (d :: ds)))
    with (string_of_list_ascii
            ("0"%char :: "."%char :: List.map digit_char (d :: ds))).
  rewrite slice_of_digits. cbn [drop].
  change (List.map digit_char (d :: ds)) with (digit_char d :: List.map digit_char ds).
  cbn [drop]. f_equal.
  destruct ds as [|d1 [|d2 [|d3 [|d4 ds]]]]; try reflexivity.
Qed.

Lemma string_of_list_ascii_length (l : list ascii) :
  String.length (string_of_list_ascii l) = length l.
Proof. induction l as [|c l IH]; cbn; [reflexivity | now rewrite IH]. Qed.

Example toString36_oneHalf : Number_toString36 oneHalf = "0.i".
Proof. reflexivity. Qed.

Example toString36_twoToMinus16 :
  Number_toString36 twoToMinus16 = "0.000pmn29".
Proof. reflexivity. Qed.

(** C2, as stated, fails: the generated hashes do not share one length.
    The number 0.5 gives the empty hash and 2^-16 gives ["n29"]. *)
Lemma hash_length_not_fixed :
  generateHash oneHalf = "" /\
  generateHash twoToMinus16 = "n29" /\
  ~ (exists n : nat, forall x : UnitNumber, String.length (generateHash x) = n).
Proof.
  split; [reflexivity|]. split; [reflexivity|].
  intros [n Hn].
  pose proof (Hn oneHalf) as H1. pose proof (Hn twoToMinus16) as H2.
  vm_compute in H1, H2. lia.
Qed.

(** C2 (amended): every generated hash consists only of characters of the
    base-36 alphabet (digits and lowercase letters); its length is not
    fixed but equals the number of radix-36 fraction digits of the random
    number less five (zero when there are at most five). *)
Theorem hash_shape (x : UnitNumber) :
  Forall (fun c => In c (list_ascii_of_string alphabet))
         (list_ascii_of_string (generateHash x))
  /\ String.length (generateHash x) = length (fraction36 x) - 5.
Proof.
  rewrite generateHash_digits. split.
  - rewrite list_ascii_of_string_of_list_ascii.
    apply List.Forall_forall. intros c Hc.
    apply List.in_map_iff in Hc. destruct Hc as [d [<- _]].
    apply digit_char_in_alphabet.
  - rewrite string_of_list_ascii_length, length_map, length_drop.
    reflexivity.
Qed.

(** ** The two repositories *)

Lemma hashmap_put (hash url : string) (m : gmap string string) :
  AppRepositoryHashmap.put hash url m = (Next (JsString url), <[hash := url]> m).
Proof.
  unfold AppRepositoryHashmap.put, AppRepositoryHashmap.Map_get,
    AppRepositoryHashmap.Map_set, of_.
  now rewrite lookup_insert_eq.
Qed.

Lemma redis_put_steps {C : Type} (client : Redis.Client C)
    (hash url : string) (c : C) :
  AppRepositoryRedis.put client hash url c
  = match Redis.SET client hash url c with
    | (Next _, c1) => Redis.GET client hash c1
    | (Error e, c1) => (Error e, c1)
    end.
Proof. reflexivity. Qed.

Lemma redis_server_put (hash url : string) (store : gmap string string) :
  AppRepositoryRedis.put Redis.server hash url store
  = (Next (JsString url), <[hash := url]> store).
Proof.
  rewrite redis_put_steps. cbn. now rewrite lookup_insert_eq.
Qed.

Lemma replay_cons {St : Type} (r : AppRepository St) (hash url : string)
    (writes : list (string * string)) (st : St) :
  replay r ((hash, url) :: writes) st
  = replay r writes (snd (put r hash url st)).
Proof. reflexivity. Qed.

Lemma replay_hashmap_other (h : string) (writes : list (string * string))
    (m : gmap string string) :
  h ∉ writes.*1 ->
  replay AppRepositoryHashmap.repository writes m !! h = m !! h.
Proof.
  revert m; induction writes as [|[k u] writes IH]; intros m Hh;
    [reflexivity|].
  rewrite replay_cons. cbn in Hh. apply not_elem_of_cons in Hh as [Hk Hrest].
  rewrite IH by exact Hrest.
  cbn [put AppRepositoryHashmap.repository]. rewrite hashmap_put.
  cbn. now rewrite lookup_insert_ne.
Qed.

Lemma replay_server_other (h : string) (writes : list (string * string))
    (store : gmap string string) :
  h ∉ writes.*1 ->
  replay (AppRepositoryRedis.repository Redis.server) writes store !! h
  = store !! h.
Proof.
  revert store; induction writes as [|[k u] writes IH]; intros store Hh;
    [reflexivity|].
  rewrite replay_cons. cbn in Hh. apply not_elem_of_cons in Hh as [Hk Hrest].
  rewrite IH by exact Hrest.
  cbn [put AppRepositoryRedis.repository]. rewrite redis_server_put.
  cbn. now rewrite lookup_insert_ne.
Qed.

(** ** The service *)

Lemma shorten_steps {St : Type} (r : AppRepository St) (url : string)
    (w : World St) :
  AppService.shorten r url w
  = let hash := generateHash (upcoming (random w) (drawn (random w))) in
    let g := snd (Math_random (random w)) in
    match put r hash url (backend w) with
    | (Next _, st') => (Next hash, {| random := g; backend := st' |})
    | (Error e, st') => (Error e, {| random := g; backend := st' |})
    end.
Proof.
  unfold AppService.shorten, pipe, map, onBackend. cbn.
  destruct (put r _ url (backend w)) as [[v|e] st']; reflexivity.
Qed.

Lemma retrieve_steps {St : Type} (r : AppRepository St) (hash : string)
    (w : World St) :
  AppService.retrieve r hash w
  = let '(n, st') := get r hash (backend w) in
    (n, {| random := random w; backend := st' |}).
Proof. reflexivity. Qed.

(** ** Claims about storing and reading back *)

(** C1: round trip.  For every url [u] (in particular every non-empty
    one), shortening [u] and then retrieving the hash that [shorten]
    emitted yields exactly [u], with the volatile repository in any state
    and with the durable repository in front of a reachable store in any
    state. *)
Theorem retrieve_shorten_roundtrip (u : string) (g : RandomSource)
    (m : gmap string string) :
  let w := {| random := g; backend := m |} in
  fst (pipe (AppService.shorten AppRepositoryHashmap.repository u)
            (mergeMap (fun hash =>
               AppService.retrieve AppRepositoryHashmap.repository hash)) w)
  = Next (JsString u)
  /\
  fst (pipe (AppService.shorten (AppRepositoryRedis.repository Redis.server) u)
            (mergeMap (fun hash =>
               AppService.retrieve (AppRepositoryRedis.repository Redis.server)
                                   hash)) w)
  = Next (JsString u).
Proof.
  intros w. unfold pipe, mergeMap. rewrite !shorten_steps.
  cbn [put AppRepositoryHashmap.repository AppRepositoryRedis.repository].
  rewrite hashmap_put, redis_server_put. cbn zeta.
  rewrite !retrieve_steps. cbn. unfold AppRepositoryHashmap.Map_get.
  now rewrite !lookup_insert_eq.
Qed.

(** C3: absence is not an error.  After any sequence of writes to a fresh
    backend, none of them under the hash [h], [get h] and [retrieve h] emit
    the absent value ([undefined] from the Map, [null] from the store)
    without failing and leave the backend as it was; that value differs
    from every url written before. *)
Theorem retrieve_never_written (h : string) (writes : list (string * string))
    (g : RandomSource) :
  h ∉ writes.*1 ->
  let m := replay AppRepositoryHashmap.repository writes
                  AppRepositoryHashmap.constructor in
  let s := replay (AppRepositoryRedis.repository Redis.server) writes ∅ in
  (AppRepositoryHashmap.get h m = (Next JsUndefined, m)
   /\ AppService.retrieve AppRepositoryHashmap.repository h
        {| random := g; backend := m |}
      = (Next JsUndefined, {| random := g; backend := m |}))
  /\ (AppRepositoryRedis.get Redis.server h s = (Next JsNull, s)
      /\ AppService.retrieve (AppRepositoryRedis.repository Redis.server) h
           {| random := g; backend := s |}
         = (Next JsNull, {| random := g; backend := s |}))
  /\ (forall k u, (k, u) ∈ writes ->
        JsUndefined <> JsString u /\ JsNull <> JsString u).
Proof.
  intros Hh m s.
  assert (Hm : m !! h = None).
  { subst m. rewrite replay_hashmap_other by exact Hh. apply lookup_empty. }
  assert (Hs : s !! h = None).
  { subst s. rewrite replay_server_other by exact Hh. apply lookup_empty. }
  repeat split; try discriminate.
  - unfold AppRepositoryHashmap.get, AppRepositoryHashmap.Map_get, of_.
    now rewrite Hm.
  - rewrite retrieve_steps. cbn.
    unfold AppRepositoryHashmap.get, AppRepositoryHashmap.Map_get, of_.
    now rewrite Hm.
  - cbn. now rewrite Hs.
  - rewrite retrieve_steps. cbn. now rewrite Hs.
Qed.

Lemma retrieve_never_written_witness :
  ("doesnotexist" ∉ [("n29", "https://aerabi.com")].*1)
  /\ AppService.retrieve AppRepositoryHashmap.repository "doesnotexist"
       {| random := constantSource twoToMinus16;
          backend := replay AppRepositoryHashmap.repository
                       [("n29", "https://aerabi.com")]
                       AppRepositoryHashmap.constructor |}
     = (Next JsUndefined,
        {| random := constantSource twoToMinus16;
           backend := replay AppRepositoryHashmap.repository
                        [("n29", "https://aerabi.com")]
                        AppRepositoryHashmap.constructor |}).
Proof.
  assert (H : "doesnotexist" ∉ [("n29", "https://aerabi.com")].*1).
  { cbn. intros Hin. apply list_elem_of_singleton in Hin. discriminate. }
  split; [exact H|].
  exact (proj2 (proj1 (retrieve_never_written "doesnotexist"
                         [("n29", "https://aerabi.com")]
                         (constantSource twoToMinus16) H))).
Defined.

(** C4: last write wins.  After [put h u1] and then [put h u2], [get h]
    emits [u2], and the backend is in the state a single [put h u2] would
    have left: nothing of the first mapping remains. *)
Theorem put_twice_last_wins (h u1 u2 : string) (m : gmap string string) :
  (let m1 := snd (AppRepositoryHashmap.put h u1 m) in
   let m2 := snd (AppRepositoryHashmap.put h u2 m1) in
   AppRepositoryHashmap.get h m2 = (Next (JsString u2), m2)
   /\ m2 = snd (AppRepositoryHashmap.put h u2 m))
  /\
  (let s1 := snd (AppRepositoryRedis.put Redis.server h u1 m) in
   let s2 := snd (AppRepositoryRedis.put Redis.server h u2 s1) in
   AppRepositoryRedis.get Redis.server h s2 = (Next (JsString u2), s2)
   /\ s2 = snd (AppRepositoryRedis.put Redis.server h u2 m)).
Proof.
  rewrite !hashmap_put, !redis_server_put. cbn [snd].
  rewrite !hashmap_put, !redis_server_put. cbn [snd].
  rewrite insert_insert_eq. repeat split.
  - unfold AppRepositoryHashmap.get, AppRepositoryHashmap.Map_get, of_.
    now rewrite lookup_insert_eq.
  - cbn. now rewrite lookup_insert_eq.
Qed.

(** C5: put confirms the stored value.  For every key [k] and value [v]:
    - the volatile [put] writes [v] under [k] in the Map, leaves every other
      key alone, and emits what the Map holds under [k] after that write,
      which is [v]; a [get] of [k] right afterwards emits the same;
    - the durable [put] over a reachable store does the same on the store;
    - over any client, a value the durable [put] emits is the reply to the
      [GET k] it sent after [SET k v] was acknowledged, those being the two
      commands sent;
    - it is not an echo of the argument: over a store that acknowledges the
      write and evicts the key at once, [put] emits [null], not [v]. *)
Theorem put_returns_stored_value (k v : string) :
  (forall m : gmap string string,
     let '(n, m') := AppRepositoryHashmap.put k v m in
     m' !! k = Some v
     /\ (forall k' : string, k' <> k -> m' !! k' = m !! k')
     /\ n = Next (JsString v)
     /\ n = Next (AppRepositoryHashmap.Map_get k m')
     /\ AppRepositoryHashmap.get k m' = (n, m'))
  /\ (forall store : gmap string string,
        let '(n, store') := AppRepositoryRedis.put Redis.server k v store in
        store' !! k = Some v
        /\ (forall k' : string, k' <> k -> store' !! k' = store !! k')
        /\ n = Next (JsString v)
        /\ AppRepositoryRedis.get Redis.server k store' = (n, store'))
  /\ (forall (C : Type) (client : Redis.Client C) (c c' : C)
             (sent sent' : list Redis.Command) (x : JsValue),
        AppRepositoryRedis.put (Redis.recording client) k v (c, sent)
        = (Next x, (c', sent')) ->
        exists (ok : JsValue) (c1 : C),
          Redis.SET client k v c = (Next ok, c1)
          /\ Redis.GET client k c1 = (Next x, c')
          /\ sent' = (sent ++ [Redis.CmdSET k v; Redis.CmdGET k])%list)
  /\ (forall (C : Type) (client : Redis.Client C) (c : C),
        AppRepositoryRedis.put client k v c
        = match Redis.SET client k v c with
          | (Next _, c1) => Redis.GET client k c1
          | (Error e, c1) => (Error e, c1)
          end)
  /\ (forall store : gmap string string,
        AppRepositoryRedis.put evictingClient k v store
        = (Next JsNull, delete k store)).
Proof.
  split; [|split; [|split; [|split]]].
  - intros m. rewrite hashmap_put.
    unfold AppRepositoryHashmap.get, AppRepositoryHashmap.Map_get, of_.
    rewrite lookup_insert_eq. repeat split.
    intros k' Hne. apply lookup_insert_ne. congruence.
  - intros store. rewrite redis_server_put. cbn.
    rewrite lookup_insert_eq. repeat split.
    intros k' Hne. apply lookup_insert_ne. congruence.
  - intros C client c c' sent sent' x Hput.
    rewrite redis_put_steps in Hput. cbn in Hput.
    destruct (Redis.SET client k v c) as [[ok|e] c1] eqn:Hset;
      [|discriminate Hput].
    cbn in Hput.
    destruct (Redis.GET client k c1) as [n c2] eqn:Hget.
    injection Hput as Hn Hc Hsent. subst n c2 sent'.
    exists ok, c1. split; [reflexivity|]. split; [exact Hget|].
    now rewrite <- app_assoc.
  - intros C client c. apply redis_put_steps.
  - intros store. rewrite redis_put_steps. cbn.
    now rewrite lookup_delete_eq.
Qed.

Lemma put_returns_stored_value_witness :
  AppRepositoryRedis.put (Redis.recording droppingClient)
    "n29" "https://aerabi.com" ((∅, 2), [])
  = (Next (JsString "https://aerabi.com"),
     (({[ "n29" := "https://aerabi.com" ]}, 0),
      [Redis.CmdSET "n29" "https://aerabi.com"; Redis.CmdGET "n29"]))
  /\ exists (ok : JsValue) (c1 : gmap string string * nat),
       Redis.SET droppingClient "n29" "https://aerabi.com" (∅, 2)
       = (Next ok, c1)
       /\ Redis.GET droppingClient "n29" c1
          = (Next (JsString "https://aerabi.com"),
             ({[ "n29" := "https://aerabi.com" ]}, 0))
       /\ [Redis.CmdSET "n29" "https://aerabi.com"; Redis.CmdGET "n29"]
          = ([] ++ [Redis.CmdSET "n29" "https://aerabi.com";
                    Redis.CmdGET "n29"])%list.
Proof.
  assert (H : AppRepositoryRedis.put (Redis.recording droppingClient)
                "n29" "https://aerabi.com" ((∅, 2), [])
              = (Next (JsString "https://aerabi.com"),
                 (({[ "n29" := "https://aerabi.com" ]}, 0),
                  [Redis.CmdSET "n29" "https://aerabi.com";
                   Redis.CmdGET "n29"]))).
  { rewrite redis_put_steps. cbn. now rewrite lookup_insert_eq. }
  split; [exact H|].
  exact (proj1 (proj2 (proj2
           (put_returns_stored_value "n29" "https://aerabi.com")))
           _ droppingClient _ _ _ _ _ H).
Defined.

(** ** Claims about failures and the durable write *)

(** C7: failure propagation without retry.  Whatever the repository, when
    its [put] of the generated hash fails with error [e], [shorten] fails
    with that same [e]: it emits no hash, and the repository was called
    exactly once, by that one [put]. *)
Theorem shorten_put_failure_propagates {St : Type} (r : AppRepository St)
    (url : string) (g : RandomSource) (st st' : St)
    (calls : list RepositoryCall) (e : JsError) :
  put r (generateHash (fst (Math_random g))) url st = (Error e, st') ->
  AppService.shorten (spyOn r) url {| random := g; backend := (st, calls) |}
  = (Error e,
     {| random := snd (Math_random g);
        backend := (st', (calls ++ [PutCall (generateHash (fst (Math_random g)))
                                            url])%list) |}).
Proof.
  intros Hput. rewrite shorten_steps. cbn in Hput |- *.
  now rewrite Hput.
Qed.

Lemma shorten_put_failure_propagates_witness :
  put (AppRepositoryRedis.repository Redis.closed)
      (generateHash (fst (Math_random (constantSource twoToMinus16))))
      "https://aerabi.com" ∅
  = (Error Redis.ClientClosedError, ∅)
  /\ AppService.shorten (spyOn (AppRepositoryRedis.repository Redis.closed))
       "https://aerabi.com"
       {| random := constantSource twoToMinus16; backend := (∅, []) |}
     = (Error Redis.ClientClosedError,
        {| random := snd (Math_random (constantSource twoToMinus16));
           backend := (∅, [PutCall "n29" "https://aerabi.com"]) |}).
Proof.
  split; [reflexivity|].
  apply (shorten_put_failure_propagates
           (AppRepositoryRedis.repository Redis.closed) "https://aerabi.com"
           (constantSource twoToMinus16) ∅ ∅ [] Redis.ClientClosedError).
  reflexivity.
Defined.

(** C8: the durable put.  Over any client, [put k v] first sends [SET k v];
    once that write is acknowledged it sends [GET k], nothing else, and what
    it emits is the outcome of that read-back.  (A rejected [SET] ends the
    put with the rejection, before any read.) *)
Theorem redis_put_write_then_read_back {C : Type} (client : Redis.Client C)
    (k v : string) (c : C) (sent : list Redis.Command) :
  AppRepositoryRedis.put (Redis.recording client) k v (c, sent)
  = match Redis.SET client k v c with
    | (Next _, c1) =>
        let '(n, c2) := Redis.GET client k c1 in
        (n, (c2, (sent ++ [Redis.CmdSET k v; Redis.CmdGET k])%list))
    | (Error e, c1) => (Error e, (c1, (sent ++ [Redis.CmdSET k v])%list))
    end.
Proof.
  rewrite redis_put_steps. cbn.
  destruct (Redis.SET client k v c) as [[ok|e] c1]; [|reflexivity].
  cbn. destruct (Redis.GET client k c1) as [n c2].
  now rewrite <- app_assoc.
Qed.

(** ** Claims about the controller *)

(** C6: missing input.  With no [url] in the body the shorten endpoint emits
    the error payload with code 400, whatever the repository; the world is
    left as it was: no number was drawn, so no hash was generated, and the
    repository saw no call. *)
Theorem shorten_without_url {St : Type} (r : AppRepository St)
    (w : World (St * list RepositoryCall)) :
  AppController.shorten (spyOn r) JsUndefined w
  = (Next (AppController.ErrorResponse AppController.noUrlMessage 400), w).
Proof. reflexivity. Qed.

(** C10: the empty string is treated as missing.  With [url] the empty
    string the shorten endpoint emits the same payload with code 400 as it
    does with no [url], and the world is left as it was: no hash generated,
    no call on the repository. *)
Theorem shorten_with_empty_url {St : Type} (r : AppRepository St)
    (w : World (St * list RepositoryCall)) :
  AppController.shorten (spyOn r) (JsString "") w
  = AppController.shorten (spyOn r) JsUndefined w
  /\ AppController.shorten (spyOn r) (JsString "") w
     = (Next (AppController.ErrorResponse AppController.noUrlMessage 400), w).
Proof. split; reflexivity. Qed.

(** C9: an absent key reaches the redirect as it is.  When the store holds
    nothing under [h], the redirect handler emits, without error, the object
    whose [url] is the backend's absent value: [undefined] over the
    volatile repository, [null] over the durable one. *)
Theorem redirect_absent_key (h : string) (g : RandomSource)
    (m : gmap string string) :
  m !! h = None ->
  AppController.retrieveAndRedirect AppRepositoryHashmap.repository h
    {| random := g; backend := m |}
  = (Next {| AppController.url := JsUndefined |},
     {| random := g; backend := m |})
  /\
  AppController.retrieveAndRedirect
    (AppRepositoryRedis.repository Redis.server) h
    {| random := g; backend := m |}
  = (Next {| AppController.url := JsNull |},
     {| random := g; backend := m |}).
Proof.
  intros Hm.
  unfold AppController.retrieveAndRedirect, pipe, map.
  rewrite !retrieve_steps. cbn.
  unfold AppRepositoryHashmap.get, AppRepositoryHashmap.Map_get, of_.
  now rewrite Hm.
Qed.

Lemma redirect_absent_key_witness :
  (∅ : gmap string string) !! "doesnotexist" = None
  /\ AppController.retrieveAndRedirect AppRepositoryHashmap.repository
       "doesnotexist"
       {| random := constantSource oneHalf; backend := ∅ |}
     = (Next {| AppController.url := JsUndefined |},
        {| random := constantSource oneHalf; backend := ∅ |}).
Proof.
  split; [reflexivity|].
  apply (redirect_absent_key "doesnotexist" (constantSource oneHalf) ∅).
  reflexivity.
Defined.

(** ** The scenarios of the test files, run on the model *)

Example shorten_then_retrieve_aerabi :
  pipe (AppService.shorten AppRepositoryHashmap.repository "https://aerabi.com")
       (mergeMap (fun hash =>
          AppService.retrieve AppRepositoryHashmap.repository hash))
       {| random := constantSource twoToMinus16;
          backend := AppRepositoryHashmap.constructor |}
  = (Next (JsString "https://aerabi.com"),
     {| random := snd (Math_random (constantSource twoToMinus16));
        backend := {[ "n29" := "https://aerabi.com" ]} |}).
Proof.
  unfold pipe, mergeMap. rewrite shorten_steps.
  cbn [put AppRepositoryHashmap.repository]. rewrite hashmap_put.
  cbn zeta. rewrite retrieve_steps. cbn.
  unfold AppRepositoryHashmap.Map_get, AppRepositoryHashmap.constructor.
  rewrite lookup_insert_eq. reflexivity.
Qed.

Example controller_shorten_aerabi :
  fst (AppController.shorten AppRepositoryHashmap.repository
         (JsString "aerabi.com")
         {| random := constantSource twoToMinus16;
            backend := AppRepositoryHashmap.constructor |})
  = Next (AppController.ShortenResponse "n29").
Proof.
  unfold AppController.shorten, pipe, map. cbn [truthy negb asString].
  rewrite shorten_steps.
  cbn [put AppRepositoryHashmap.repository]. rewrite hashmap_put.
  reflexivity.
Qed.

Example retrieve_doesnotexist_fresh :
  AppService.retrieve AppRepositoryHashmap.repository "doesnotexist"
    {| random := constantSource oneHalf;
       backend := AppRepositoryHashmap.constructor |}
  = (Next JsUndefined,
     {| random := constantSource oneHalf;
        backend := AppRepositoryHashmap.constructor |}).
Proof. reflexivity. Qed.

(** * Further properties of the code *)

(** ** The hash generator (app.service.ts, line 16) *)

Lemma digit_char_inj (d1 d2 : Digit36) :
  digit_char d1 = digit_char d2 -> d1 = d2.
Proof. destruct d1, d2; intros H; (reflexivity || discriminate H). Qed.

Lemma map_digit_char_inj (l1 l2 : list Digit36) :
  List.map digit_char l1 = List.map digit_char l2 -> l1 = l2.
Proof.
  revert l2; induction l1 as [|d1 l1 IH]; intros [|d2 l2] H;
    try discriminate H; [reflexivity|].
  cbn in H. injection H as Hd Hl.
  f_equal; [now apply digit_char_inj | now apply IH].
Qed.

Lemma string_of_list_ascii_inj (l1 l2 : list ascii) :
  string_of_list_ascii l1 = string_of_list_ascii l2 -> l1 = l2.
Proof.
  intros H. apply (f_equal list_ascii_of_string) in H.
  now rewrite !list_ascii_of_string_of_list_ascii in H.
Qed.

(** Two random numbers give the same hash exactly when their radix-36
    fraction digits agree from the sixth digit on: the first five digits
    take no part in the hash. *)
Theorem generateHash_collision_iff (x y : UnitNumber) :
  generateHash x = generateHash y
  <-> drop 5 (fraction36 x) = drop 5 (fraction36 y).
Proof.
  rewrite !generateHash_digits. split.
  - intros H. apply map_digit_char_inj. now apply string_of_list_ascii_inj.
  - intros H. now rewrite H.
Qed.

(** The generated hash is the empty string exactly when the number drawn
    prints with at most five fraction digits. *)
Theorem generateHash_empty_iff (x : UnitNumber) :
  generateHash x = "" <-> length (fraction36 x) <= 5.
Proof.
  assert (Hlen : String.length (generateHash x) = length (fraction36 x) - 5).
  { rewrite generateHash_digits.
    now rewrite string_of_list_ascii_length, length_map, length_drop. }
  split.
  - intros H. rewrite H in Hlen. cbn in Hlen. lia.
  - intros H. destruct (generateHash x) as [|c rest] eqn:E; [reflexivity|].
    cbn in Hlen. lia.
Qed.

(** ** The repositories over whole histories of writes *)

Lemma replay_hashmap_lookup (h : string) (writes : list (string * string))
    (m : gmap string string) :
  replay AppRepositoryHashmap.repository writes m !! h
  = match lastWritten h writes with
    | Some u => Some u
    | None => m !! h
    end.
Proof.
  revert m; induction writes as [|[k u] writes IH]; intros m; [reflexivity|].
  rewrite replay_cons, IH. cbn [lastWritten].
  destruct (lastWritten h writes) as [later|]; [reflexivity|].
  cbn [put AppRepositoryHashmap.repository]. rewrite hashmap_put. cbn [snd].
  destruct (decide (k = h)) as [->|Hne].
  - apply lookup_insert_eq.
  - now apply lookup_insert_ne.
Qed.

Lemma hashmap_put_is_server_put (h u : string) (m : gmap string string) :
  AppRepositoryHashmap.put h u m = AppRepositoryRedis.put Redis.server h u m.
Proof. now rewrite hashmap_put, redis_server_put. Qed.

Lemma replay_hashmap_is_replay_server (writes : list (string * string))
    (m : gmap string string) :
  replay AppRepositoryHashmap.repository writes m
  = replay (AppRepositoryRedis.repository Redis.server) writes m.
Proof.
  revert m; induction writes as [|[k u] writes IH]; intros m; [reflexivity|].
  rewrite !replay_cons.
  cbn [put AppRepositoryHashmap.repository AppRepositoryRedis.repository].
  now rewrite hashmap_put_is_server_put, IH.
Qed.

(** After any history of writes, on top of any earlier state, [get h]
    emits the url of the latest write under [h]; when the history has no
    write under [h] it emits what it emitted before the history.  So for
    both repositories. *)
Theorem get_after_history (h : string) (writes : list (string * string))
    (m : gmap string string) :
  fst (AppRepositoryHashmap.get h
         (replay AppRepositoryHashmap.repository writes m))
  = match lastWritten h writes with
    | Some u => Next (JsString u)
    | None => fst (AppRepositoryHashmap.get h m)
    end
  /\
  fst (AppRepositoryRedis.get Redis.server h
         (replay (AppRepositoryRedis.repository Redis.server) writes m))
  = match lastWritten h writes with
    | Some u => Next (JsString u)
    | None => fst (AppRepositoryRedis.get Redis.server h m)
    end.
Proof.
  rewrite <- replay_hashmap_is_replay_server.
  unfold AppRepositoryHashmap.get, AppRepositoryHashmap.Map_get, of_.
  cbn. rewrite replay_hashmap_lookup.
  destruct (lastWritten h writes); split; reflexivity.
Qed.

(** A mapping is never deleted: once a url was put under [h], every later
    history of writes leaves [get h] emitting a url (the latest one written
    under [h]), never the absent value. *)
Theorem written_key_stays (h u : string) (writes : list (string * string))
    (m : gmap string string) :
  fst (AppRepositoryHashmap.get h
         (replay AppRepositoryHashmap.repository writes
                 (snd (AppRepositoryHashmap.put h u m))))
  = Next (JsString (default u (lastWritten h writes)))
  /\
  fst (AppRepositoryRedis.get Redis.server h
         (replay (AppRepositoryRedis.repository Redis.server) writes
                 (snd (AppRepositoryRedis.put Redis.server h u m))))
  = Next (JsString (default u (lastWritten h writes))).
Proof.
  rewrite <- replay_hashmap_is_replay_server, <- hashmap_put_is_server_put.
  rewrite hashmap_put. cbn [snd].
  unfold AppRepositoryHashmap.get, AppRepositoryHashmap.Map_get, of_.
  cbn. rewrite replay_hashmap_lookup.
  destruct (lastWritten h writes); cbn; [split; reflexivity|].
  rewrite lookup_insert_eq. split; reflexivity.
Qed.

(** The two repositories are interchangeable over a reachable store: every
    [put] emits the same value and leaves the same mappings, so any history
    leads both to the same mappings; [get] agrees on every key that has a
    mapping and differs only in the absent value, [undefined] against
    [null]. *)
Theorem repositories_agree (writes : list (string * string))
    (m : gmap string string) (h : string) :
  (forall (k v : string) (s : gmap string string),
     AppRepositoryHashmap.put k v s = AppRepositoryRedis.put Redis.server k v s)
  /\ replay AppRepositoryHashmap.repository writes m
     = replay (AppRepositoryRedis.repository Redis.server) writes m
  /\ (forall s : gmap string string,
        match s !! h with
        | Some u =>
            AppRepositoryHashmap.get h s = (Next (JsString u), s)
            /\ AppRepositoryRedis.get Redis.server h s = (Next (JsString u), s)
        | None =>
            AppRepositoryHashmap.get h s = (Next JsUndefined, s)
            /\ AppRepositoryRedis.get Redis.server h s = (Next JsNull, s)
        end).
Proof.
  split; [exact hashmap_put_is_server_put|].
  split; [apply replay_hashmap_is_replay_server|].
  intros s.
  unfold AppRepositoryHashmap.get, AppRepositoryHashmap.Map_get, of_. cbn.
  destruct (s !! h); split; reflexivity.
Qed.

(** ** The service (app.service.ts) *)

Lemma shorten_hashmap (u : string) (g : RandomSource)
    (m : gmap string string) :
  AppService.shorten AppRepositoryHashmap.repository u
    {| random := g; backend := m |}
  = (Next (generateHash (upcoming g (drawn g))),
     {| random := {| upcoming := upcoming g; drawn := S (drawn g) |};
        backend := <[generateHash (upcoming g (drawn g)) := u]> m |}).
Proof.
  rewrite shorten_steps. cbn [put AppRepositoryHashmap.repository].
  cbn [random backend]. now rewrite hashmap_put.
Qed.

Lemma shorten_server (u : string) (g : RandomSource)
    (m : gmap string string) :
  AppService.shorten (AppRepositoryRedis.repository Redis.server) u
    {| random := g; backend := m |}
  = (Next (generateHash (upcoming g (drawn g))),
     {| random := {| upcoming := upcoming g; drawn := S (drawn g) |};
        backend := <[generateHash (upcoming g (drawn g)) := u]> m |}).
Proof.
  rewrite shorten_steps. cbn [put AppRepositoryRedis.repository].
  cbn [random backend]. now rewrite redis_server_put.
Qed.

Lemma retrieve_hashmap (h : string) (g : RandomSource)
    (m : gmap string string) :
  AppService.retrieve AppRepositoryHashmap.repository h
    {| random := g; backend := m |}
  = (Next (AppRepositoryHashmap.Map_get h m), {| random := g; backend := m |}).
Proof. reflexivity. Qed.

Lemma retrieve_server (h : string) (g : RandomSource)
    (m : gmap string string) :
  AppService.retrieve (AppRepositoryRedis.repository Redis.server) h
    {| random := g; backend := m |}
  = (Next (match m !! h with Some v => JsString v | None => JsNull end),
     {| random := g; backend := m |}).
Proof. reflexivity. Qed.

(** [shorten] does not look at what [put] emitted: whatever the repository
    and whatever value its [put] emits (a url, [null], [undefined]),
    [shorten] emits the hash it generated, the one it passed to [put]
    together with the url as given; the repository is called once, by that
    [put], and one random number is consumed. *)
Theorem shorten_emits_generated_hash {St : Type} (r : AppRepository St)
    (url : string) (g : RandomSource) (st st' : St)
    (calls : list RepositoryCall) (v : JsValue) :
  put r (generateHash (upcoming g (drawn g))) url st = (Next v, st') ->
  AppService.shorten (spyOn r) url {| random := g; backend := (st, calls) |}
  = (Next (generateHash (upcoming g (drawn g))),
     {| random := {| upcoming := upcoming g; drawn := S (drawn g) |};
        backend := (st', (calls ++ [PutCall (generateHash
                                               (upcoming g (drawn g)))
                                            url])%list) |}).
Proof.
  intros Hput. rewrite shorten_steps. cbn in Hput |- *. now rewrite Hput.
Qed.

Lemma shorten_emits_generated_hash_witness :
  put AppRepositoryHashmap.repository
      (generateHash (upcoming alternatingSource (drawn alternatingSource)))
      "aerabi.com" ∅
  = (Next (JsString "aerabi.com"), {[ "n29" := "aerabi.com" ]})
  /\ AppService.shorten (spyOn AppRepositoryHashmap.repository) "aerabi.com"
       {| random := alternatingSource; backend := (∅, []) |}
     = (Next "n29",
        {| random := {| upcoming := upcoming alternatingSource; drawn := 1 |};
           backend := ({[ "n29" := "aerabi.com" ]},
                       [PutCall "n29" "aerabi.com"]) |}).
Proof.
  assert (H : put AppRepositoryHashmap.repository
                (generateHash
                   (upcoming alternatingSource (drawn alternatingSource)))
                "aerabi.com" ∅
              = (Next (JsString "aerabi.com"), {[ "n29" := "aerabi.com" ]})).
  { cbn [put AppRepositoryHashmap.repository]. now rewrite hashmap_put. }
  split; [exact H|].
  exact (shorten_emits_generated_hash AppRepositoryHashmap.repository
           "aerabi.com" alternatingSource ∅ _ [] _ H).
Defined.

(** [shorten] touches one key only: the url any other hash retrieves is the
    same after the call as before, with either repository. *)
Theorem shorten_leaves_other_hashes (u h : string) (g : RandomSource)
    (m : gmap string string) :
  h <> generateHash (upcoming g (drawn g)) ->
  fst (AppService.retrieve AppRepositoryHashmap.repository h
         (snd (AppService.shorten AppRepositoryHashmap.repository u
                 {| random := g; backend := m |})))
  = fst (AppService.retrieve AppRepositoryHashmap.repository h
           {| random := g; backend := m |})
  /\
  fst (AppService.retrieve (AppRepositoryRedis.repository Redis.server) h
         (snd (AppService.shorten (AppRepositoryRedis.repository Redis.server)
                 u {| random := g; backend := m |})))
  = fst (AppService.retrieve (AppRepositoryRedis.repository Redis.server) h
           {| random := g; backend := m |}).
Proof.
  intros Hne. rewrite shorten_hashmap, shorten_server. cbn [snd].
  rewrite !retrieve_hashmap, !retrieve_server. cbn [fst].
  unfold AppRepositoryHashmap.Map_get.
  rewrite !lookup_insert_ne by (intros E; apply Hne; now rewrite E).
  split; reflexivity.
Qed.

Lemma shorten_leaves_other_hashes_witness :
  "abc" <> generateHash (upcoming alternatingSource (drawn alternatingSource))
  /\ fst (AppService.retrieve AppRepositoryHashmap.repository "abc"
            (snd (AppService.shorten AppRepositoryHashmap.repository
                    "aerabi.com"
                    {| random := alternatingSource;
                       backend := {[ "abc" := "docker.com" ]} |})))
     = fst (AppService.retrieve AppRepositoryHashmap.repository "abc"
              {| random := alternatingSource;
                 backend := {[ "abc" := "docker.com" ]} |}).
Proof.
  assert (H : "abc" <> generateHash
                         (upcoming alternatingSource (drawn alternatingSource))).
  { discriminate. }
  split; [exact H|].
  exact (proj1 (shorten_leaves_other_hashes "aerabi.com" "abc"
                  alternatingSource {[ "abc" := "docker.com" ]} H)).
Defined.

(** No collision detection: when two successive calls of [shorten] draw
    numbers whose hashes coincide, the second call emits the same hash as
    the first and replaces its url; the hash then retrieves the second url
    and the Map is as if the first call had not stored anything. *)
Theorem shorten_collision_overwrites (u1 u2 : string) (g : RandomSource)
    (m : gmap string string) :
  generateHash (upcoming g (drawn g)) = generateHash (upcoming g (S (drawn g))) ->
  let w1 := snd (AppService.shorten AppRepositoryHashmap.repository u1
                   {| random := g; backend := m |}) in
  let r2 := AppService.shorten AppRepositoryHashmap.repository u2 w1 in
  fst r2 = Next (generateHash (upcoming g (drawn g)))
  /\ fst (AppService.retrieve AppRepositoryHashmap.repository
            (generateHash (upcoming g (drawn g))) (snd r2))
     = Next (JsString u2)
  /\ backend (snd r2) = <[generateHash (upcoming g (drawn g)) := u2]> m.
Proof.
  intros Hsame w1 r2. subst r2 w1.
  rewrite shorten_hashmap. cbn [snd]. rewrite shorten_hashmap.
  cbn [upcoming drawn fst snd backend]. rewrite <- Hsame.
  rewrite retrieve_hashmap. cbn [fst]. unfold AppRepositoryHashmap.Map_get.
  rewrite lookup_insert_eq, insert_insert_eq. repeat split.
Qed.

Lemma shorten_collision_overwrites_witness :
  generateHash (upcoming (constantSource twoToMinus16) 0)
  = generateHash (upcoming (constantSource twoToMinus16) 1)
  /\ fst (AppService.shorten AppRepositoryHashmap.repository "docker.com"
            (snd (AppService.shorten AppRepositoryHashmap.repository
                    "aerabi.com"
                    {| random := constantSource twoToMinus16;
                       backend := ∅ |})))
     = Next "n29".
Proof.
  split; [reflexivity|].
  exact (proj1 (shorten_collision_overwrites "aerabi.com" "docker.com"
                  (constantSource twoToMinus16) ∅ eq_refl)).
Defined.

(** When the two hashes differ, both urls stay retrievable after the two
    calls, each under its own hash. *)
Theorem shorten_twice_distinct_hashes (u1 u2 : string) (g : RandomSource)
    (m : gmap string string) :
  generateHash (upcoming g (drawn g)) <> generateHash (upcoming g (S (drawn g))) ->
  let w2 := snd (AppService.shorten AppRepositoryHashmap.repository u2
                   (snd (AppService.shorten AppRepositoryHashmap.repository u1
                           {| random := g; backend := m |}))) in
  fst (AppService.retrieve AppRepositoryHashmap.repository
         (generateHash (upcoming g (drawn g))) w2)
  = Next (JsString u1)
  /\ fst (AppService.retrieve AppRepositoryHashmap.repository
            (generateHash (upcoming g (S (drawn g)))) w2)
     = Next (JsString u2).
Proof.
  intros Hne w2. subst w2.
  rewrite shorten_hashmap. cbn [snd]. rewrite shorten_hashmap.
  cbn [upcoming drawn snd]. rewrite !retrieve_hashmap. cbn [fst].
  unfold AppRepositoryHashmap.Map_get.
  rewrite lookup_insert_ne by (intros E; apply Hne; now rewrite E).
  rewrite !lookup_insert_eq. split; reflexivity.
Qed.

Lemma shorten_twice_distinct_hashes_witness :
  generateHash (upcoming alternatingSource 0)
  <> generateHash (upcoming alternatingSource 1)
  /\ fst (AppService.retrieve AppRepositoryHashmap.repository "n29"
            (snd (AppService.shorten AppRepositoryHashmap.repository
                    "docker.com"
                    (snd (AppService.shorten AppRepositoryHashmap.repository
                            "aerabi.com"
                            {| random := alternatingSource;
                               backend := ∅ |})))))
     = Next (JsString "aerabi.com").
Proof.
  assert (H : generateHash (upcoming alternatingSource 0)
              <> generateHash (upcoming alternatingSource 1)).
  { discriminate. }
  split; [exact H|].
  exact (proj1 (shorten_twice_distinct_hashes "aerabi.com" "docker.com"
                  alternatingSource ∅ H)).
Defined.

(** [shorten] consumes exactly one random number whether its [put] succeeds
    or fails, and leaves the numbers to come as they were; [retrieve]
    consumes none.  So for every repository. *)
Theorem random_numbers_consumed {St : Type} (r : AppRepository St)
    (url hash : string) (w : World St) :
  random (snd (AppService.shorten r url w))
  = {| upcoming := upcoming (random w); drawn := S (drawn (random w)) |}
  /\ random (snd (AppService.retrieve r hash w)) = random w.
Proof.
  split.
  - rewrite shorten_steps. cbn zeta.
    destruct (put r _ url (backend w)) as [[v|e] st']; reflexivity.
  - rewrite retrieve_steps.
    destruct (get r hash (backend w)) as [n st']; reflexivity.
Qed.

(** ** The durable repository when the connection fails between the write
    and the read-back (app.repository.redis.ts, lines 23-27) *)

(** The durable [put] is not atomic.  Over any client, when the [SET] is
    acknowledged and the read-back [GET] is then rejected with [e],
    [shorten] fails with [e] and emits no hash although the write was
    carried out: both commands were sent and the client is left in the
    state after them. *)
Theorem redis_shorten_fails_after_write {C : Type} (client : Redis.Client C)
    (url : string) (g : RandomSource) (c c1 c2 : C) (ok : JsValue)
    (e : JsError) (sent : list Redis.Command) :
  Redis.SET client (generateHash (upcoming g (drawn g))) url c = (Next ok, c1) ->
  Redis.GET client (generateHash (upcoming g (drawn g))) c1 = (Error e, c2) ->
  AppService.shorten (AppRepositoryRedis.repository (Redis.recording client))
    url {| random := g; backend := (c, sent) |}
  = (Error e,
     {| random := {| upcoming := upcoming g; drawn := S (drawn g) |};
        backend :=
          (c2, (sent ++ [Redis.CmdSET (generateHash (upcoming g (drawn g))) url;
                         Redis.CmdGET (generateHash (upcoming g (drawn g)))])%list)
     |}).
Proof.
  intros Hset Hget. rewrite shorten_steps.
  cbn [put AppRepositoryRedis.repository random backend].
  set (hash := generateHash (upcoming g (drawn g))) in *.
  rewrite redis_put_steps. cbn [Redis.SET Redis.GET Redis.recording].
  rewrite Hset, Hget. cbn. now rewrite <- app_assoc.
Qed.

Lemma redis_shorten_fails_after_write_witness :
  Redis.SET droppingClient "n29" "aerabi.com" (∅, 1)
  = (Next (JsString "OK"), ({[ "n29" := "aerabi.com" ]}, 0))
  /\ Redis.GET droppingClient "n29" ({[ "n29" := "aerabi.com" ]}, 0)
     = (Error Redis.ClientClosedError, ({[ "n29" := "aerabi.com" ]}, 0))
  /\ AppService.shorten
       (AppRepositoryRedis.repository (Redis.recording droppingClient))
       "aerabi.com"
       {| random := constantSource twoToMinus16; backend := ((∅, 1), []) |}
     = (Error Redis.ClientClosedError,
        {| random := {| upcoming := upcoming (constantSource twoToMinus16);
                        drawn := 1 |};
           backend := (({[ "n29" := "aerabi.com" ]}, 0),
                       [Redis.CmdSET "n29" "aerabi.com"; Redis.CmdGET "n29"])
        |}).
Proof.
  split; [reflexivity|]. split; [reflexivity|].
  exact (redis_shorten_fails_after_write droppingClient "aerabi.com"
           (constantSource twoToMinus16) (∅, 1)
           ({[ "n29" := "aerabi.com" ]}, 0) ({[ "n29" := "aerabi.com" ]}, 0)
           (JsString "OK") Redis.ClientClosedError [] eq_refl eq_refl).
Defined.

(** ** The controller (app.controller.ts) *)

Lemma controller_shorten_truthy {St : Type} (r : AppRepository St)
    (url : JsValue) (w : World St) :
  truthy url = true ->
  AppController.shorten r url w
  = map (fun hash => AppController.ShortenResponse hash)
        (AppService.shorten r (asString url)) w.
Proof.
  intros Ht. unfold AppController.shorten, pipe. now rewrite Ht.
Qed.

(** The 400 payload is the answer to a falsy [url] and to nothing else:
    whatever the repository does, the shorten endpoint emits an
    [ErrorResponse] exactly when [url] is [undefined], [null] or the empty
    string; a failing repository never produces one. *)
Theorem error_payload_iff_falsy {St : Type} (r : AppRepository St)
    (url : JsValue) (w : World St) :
  (exists msg code,
     fst (AppController.shorten r url w)
     = Next (AppController.ErrorResponse msg code))
  <-> truthy url = false.
Proof.
  split.
  - intros [msg [code H]].
    destruct (truthy url) eqn:Ht; [|reflexivity].
    rewrite controller_shorten_truthy in H by exact Ht.
    unfold map in H.
    destruct (AppService.shorten r (asString url) w) as [[hash|e] w'];
      discriminate H.
  - intros Hf. exists AppController.noUrlMessage, 400%Z.
    unfold AppController.shorten. now rewrite Hf.
Qed.

(** A failing repository is not turned into a payload: for a truthy [url],
    when [put] fails with [e] the shorten endpoint fails with that same [e],
    after one call of [put] with the generated hash and the url as given. *)
Theorem controller_shorten_failure_propagates {St : Type}
    (r : AppRepository St) (url : JsValue) (g : RandomSource) (st st' : St)
    (calls : list RepositoryCall) (e : JsError) :
  truthy url = true ->
  put r (generateHash (upcoming g (drawn g))) (asString url) st
  = (Error e, st') ->
  AppController.shorten (spyOn r) url {| random := g; backend := (st, calls) |}
  = (Error e,
     {| random := {| upcoming := upcoming g; drawn := S (drawn g) |};
        backend := (st', (calls ++ [PutCall (generateHash
                                               (upcoming g (drawn g)))
                                            (asString url)])%list) |}).
Proof.
  intros Ht Hput. rewrite controller_shorten_truthy by exact Ht.
  unfold map. rewrite shorten_steps. cbn in Hput |- *. now rewrite Hput.
Qed.

Lemma controller_shorten_failure_propagates_witness :
  truthy (JsString "aerabi.com") = true
  /\ AppController.shorten (spyOn (AppRepositoryRedis.repository Redis.closed))
       (JsString "aerabi.com")
       {| random := constantSource twoToMinus16; backend := (∅, []) |}
     = (Error Redis.ClientClosedError,
        {| random := {| upcoming := upcoming (constantSource twoToMinus16);
                        drawn := 1 |};
           backend := (∅, [PutCall "n29" "aerabi.com"]) |}).
Proof.
  split; [reflexivity|].
  exact (controller_shorten_failure_propagates
           (AppRepositoryRedis.repository Redis.closed) (JsString "aerabi.com")
           (constantSource twoToMinus16) ∅ ∅ [] Redis.ClientClosedError
           eq_refl eq_refl).
Defined.

(** End to end: for a non-empty url the shorten endpoint answers with a
    hash, and the redirect endpoint called with that hash right afterwards
    redirects to exactly the url, leaving the world as it found it.  So with
    either repository, from any state. *)
Theorem shorten_then_redirect (u : string) (g : RandomSource)
    (m : gmap string string) :
  u <> "" ->
  (let r := AppController.shorten AppRepositoryHashmap.repository (JsString u)
              {| random := g; backend := m |} in
   fst r = Next (AppController.ShortenResponse
                   (generateHash (upcoming g (drawn g))))
   /\ AppController.retrieveAndRedirect AppRepositoryHashmap.repository
        (generateHash (upcoming g (drawn g))) (snd r)
      = (Next {| AppController.url := JsString u |}, snd r))
  /\
  (let r := AppController.shorten (AppRepositoryRedis.repository Redis.server)
              (JsString u) {| random := g; backend := m |} in
   fst r = Next (AppController.ShortenResponse
                   (generateHash (upcoming g (drawn g))))
   /\ AppController.retrieveAndRedirect
        (AppRepositoryRedis.repository Redis.server)
        (generateHash (upcoming g (drawn g))) (snd r)
      = (Next {| AppController.url := JsString u |}, snd r)).
Proof.
  intros Hu.
  assert (Ht : truthy (JsString u) = true) by (destruct u; [easy | reflexivity]).
  cbv zeta. rewrite !controller_shorten_truthy by exact Ht.
  unfold map. cbn [asString]. rewrite shorten_hashmap, shorten_server.
  cbn [fst snd].
  unfold AppController.retrieveAndRedirect, pipe, map.
  rewrite retrieve_hashmap, retrieve_server.
  unfold AppRepositoryHashmap.Map_get. rewrite !lookup_insert_eq.
  repeat split.
Qed.

Lemma shorten_then_redirect_witness :
  "aerabi.com" <> ""
  /\ fst (AppController.shorten AppRepositoryHashmap.repository
            (JsString "aerabi.com")
            {| random := constantSource twoToMinus16; backend := ∅ |})
     = Next (AppController.ShortenResponse "n29").
Proof.
  assert (H : "aerabi.com" <> "") by discriminate.
  split; [exact H|].
  exact (proj1 (proj1 (shorten_then_redirect "aerabi.com"
                         (constantSource twoToMinus16) ∅ H))).
Defined.

(** A hash that has a mapping redirects to its url, with either repository,
    and the world is left as it was. *)
Theorem redirect_present_key (h u : string) (g : RandomSource)
    (m : gmap string string) :
  m !! h = Some u ->
  AppController.retrieveAndRedirect AppRepositoryHashmap.repository h
    {| random := g; backend := m |}
  = (Next {| AppController.url := JsString u |},
     {| random := g; backend := m |})
  /\
  AppController.retrieveAndRedirect
    (AppRepositoryRedis.repository Redis.server) h
    {| random := g; backend := m |}
  = (Next {| AppController.url := JsString u |},
     {| random := g; backend := m |}).
Proof.
  intros Hm. unfold AppController.retrieveAndRedirect, pipe, map.
  rewrite retrieve_hashmap, retrieve_server.
  unfold AppRepositoryHashmap.Map_get. now rewrite Hm.
Qed.

Lemma redirect_present_key_witness :
  ({[ "n29" := "aerabi.com" ]} : gmap string string) !! "n29"
  = Some "aerabi.com"
  /\ AppController.retrieveAndRedirect AppRepositoryHashmap.repository "n29"
       {| random := constantSource oneHalf;
          backend := {[ "n29" := "aerabi.com" ]} |}
     = (Next {| AppController.url := JsString "aerabi.com" |},
        {| random := constantSource oneHalf;
           backend := {[ "n29" := "aerabi.com" ]} |}).
Proof.
  assert (H : ({[ "n29" := "aerabi.com" ]} : gmap string string) !! "n29"
              = Some "aerabi.com") by apply lookup_singleton_eq.
  split; [exact H|].
  exact (proj1 (redirect_present_key "n29" "aerabi.com"
                  (constantSource oneHalf) _ H)).
Defined.

(** A failing read is passed on as it is: whatever the repository, when its
    [get] fails with [e] the redirect endpoint fails with that same [e] and
    emits no redirect object, after that one call of [get]; no random number
    is drawn. *)
Theorem redirect_get_failure_propagates {St : Type} (r : AppRepository St)
    (h : string) (g : RandomSource) (st st' : St)
    (calls : list RepositoryCall) (e : JsError) :
  get r h st = (Error e, st') ->
  AppController.retrieveAndRedirect (spyOn r) h
    {| random := g; backend := (st, calls) |}
  = (Error e, {| random := g;
                 backend := (st', (calls ++ [GetCall h])%list) |}).
Proof.
  intros Hget. unfold AppController.retrieveAndRedirect, pipe, map.
  rewrite retrieve_steps. cbn in Hget |- *. now rewrite Hget.
Qed.

Lemma redirect_get_failure_propagates_witness :
  get (AppRepositoryRedis.repository Redis.closed) "n29" ∅
  = (Error Redis.ClientClosedError, ∅)
  /\ AppController.retrieveAndRedirect
       (spyOn (AppRepositoryRedis.repository Redis.closed)) "n29"
       {| random := constantSource oneHalf; backend := (∅, []) |}
     = (Error Redis.ClientClosedError,
        {| random := constantSource oneHalf;
           backend := (∅, [GetCall "n29"]) |}).
Proof.
  split; [reflexivity|].
  exact (redirect_get_failure_propagates
           (AppRepositoryRedis.repository Redis.closed) "n29"
           (constantSource oneHalf) ∅ ∅ [] Redis.ClientClosedError eq_refl).
Defined.

(** The redirect endpoint never writes: over the volatile repository the
    world after the call is the world before it, and over the durable
    repository, whatever the client answers, the one command sent is the
    [GET] of the hash. *)
Theorem redirect_never_writes (h : string) :
  (forall w : World (gmap string string),
     snd (AppController.retrieveAndRedirect AppRepositoryHashmap.repository
            h w) = w)
  /\ (forall (C : Type) (client : Redis.Client C) (g : RandomSource) (c : C)
             (sent : list Redis.Command),
        let w' := snd (AppController.retrieveAndRedirect
                         (AppRepositoryRedis.repository
                            (Redis.recording client)) h
                         {| random := g; backend := (c, sent) |}) in
        random w' = g
        /\ snd (backend w') = (sent ++ [Redis.CmdGET h])%list).
Proof.
  split.
  - intros [g m]. reflexivity.
  - intros C client g c sent.
    unfold AppController.retrieveAndRedirect, pipe, map.
    rewrite retrieve_steps. cbn.
    destruct (Redis.GET client h c) as [[v|e] c']; split; reflexivity.
Qed.
